(** * mixpanel-export-api: the request assembler and the request signer

    A shallow embedding of [src/index.js]: the constructor of
    [MixpanelExportAPI], its [request] and [sign] methods and the loop that
    generates one vanity method per endpoint of the specification table.

    What the source takes from libraries is written out next to it, from the
    libraries' documentation: lodash 2.x ([_.defaults], [_.zipObject],
    [_.pairs], [_.forEach]), [Array.prototype.slice/join/sort] and the MD5
    digest of Node's [crypto] (RFC 1321).  [url.format] and the [request]
    HTTP library are not interpreted: a call that reaches them yields the
    object handed to them; of [path.join] the error for an argument that is
    not a string is kept. *)

From Stdlib Require Import ZArith String Ascii List Lia Bool DecimalString.
From stdpp Require Import base list sorting.

Local Open Scope string_scope.
Local Open Scope Z_scope.

(** ** crypto.createHash('md5'): RFC 1321 over bytes held as [Z] *)

Module MD5.

Definition mask32 : Z := 4294967295.

Definition add32 (x y : Z) : Z := Z.land (x + y) mask32.

Definition not32 (x : Z) : Z := Z.lxor x mask32.

Definition rotl32 (x n : Z) : Z :=
  Z.land (Z.lor (Z.shiftl x n) (Z.shiftr x (32 - n))) mask32.

(** Per-round shift amounts. *)
Definition shifts : list Z :=
  [ 7; 12; 17; 22; 7; 12; 17; 22; 7; 12; 17; 22; 7; 12; 17; 22;
    5;  9; 14; 20; 5;  9; 14; 20; 5;  9; 14; 20; 5;  9; 14; 20;
    4; 11; 16; 23; 4; 11; 16; 23; 4; 11; 16; 23; 4; 11; 16; 23;
    6; 10; 15; 21; 6; 10; 15; 21; 6; 10; 15; 21; 6; 10; 15; 21 ]%Z.

(** [K i = floor (2^32 * abs (sin (i + 1)))]. *)
Definition K : list Z :=
  [ 3614090360; 3905402710; 606105819; 3250441966;
    4118548399; 1200080426; 2821735955; 4249261313;
    1770035416; 2336552879; 4294925233; 2304563134;
    1804603682; 4254626195; 2792965006; 1236535329;
    4129170786; 3225465664; 643717713; 3921069994;
    3593408605; 38016083; 3634488961; 3889429448;
    568446438; 3275163606; 4107603335; 1163531501;
    2850285829; 4243563512; 1735328473; 2368359562;
    4294588738; 2272392833; 1839030562; 4259657740;
    2763975236; 1272893353; 4139469664; 3200236656;
    681279174; 3936430074; 3572445317; 76029189;
    3654602809; 3873151461; 530742520; 3299628645;
    4096336452; 1126891415; 2878612391; 4237533241;
    1700485571; 2399980690; 4293915773; 2240044497;
    1873313359; 4264355552; 2734768916; 1309151649;
    4149444226; 3174756917; 718787259; 3951481745 ]%Z.

Record state := State { sA : Z; sB : Z; sC : Z; sD : Z }.

Definition init : state :=
  State 1732584193 4023233417 2562383102 271733878.

(** The 64 operations on one block [M] of sixteen 32-bit words. *)
Definition step (M : list Z) (st : state) (i : nat) : state :=
  let '(State a b c d) := st in
  let iz := Z.of_nat i in
  let '(f, g) :=
    if iz <? 16 then (Z.lor (Z.land b c) (Z.land (not32 b) d), iz)
    else if iz <? 32 then
      (Z.lor (Z.land d b) (Z.land (not32 d) c), (5 * iz + 1) mod 16)
    else if iz <? 48 then (Z.lxor b (Z.lxor c d), (3 * iz + 5) mod 16)
    else (Z.lxor c (Z.lor b (not32 d)), (7 * iz) mod 16) in
  let f' := add32 (add32 (add32 f a) (nth i K 0)) (nth (Z.to_nat g) M 0) in
  State d (add32 b (rotl32 f' (nth i shifts 0))) b c.

Definition word_le (b0 b1 b2 b3 : Z) : Z :=
  b0 + 256 * (b1 + 256 * (b2 + 256 * b3)).

Fixpoint words (fuel : nat) (bytes : list Z) : list Z :=
  match fuel, bytes with
  | S fuel', b0 :: b1 :: b2 :: b3 :: rest =>
      word_le b0 b1 b2 b3 :: words fuel' rest
  | _, _ => []
  end.

Definition block (st : state) (chunk : list Z) : state :=
  let '(State a b c d) := fold_left (step (words 16 chunk)) (seq 0 64) st in
  State (add32 (sA st) a) (add32 (sB st) b) (add32 (sC st) c) (add32 (sD st) d).

Fixpoint blocks (fuel : nat) (st : state) (bytes : list Z) : state :=
  match fuel with
  | O => st
  | S fuel' =>
      blocks fuel' (block st (firstn 64 bytes)) (skipn 64 bytes)
  end.

Definition bytes_le (count : nat) (x : Z) : list Z :=
  map (fun i => Z.land (Z.shiftr x (8 * Z.of_nat i)) 255) (seq 0 count).

(** Padding: a [0x80] byte, zeros up to 56 modulo 64, then the bit length
    of the message as 64 little-endian bits. *)
Definition pad (msg : list Z) : list Z :=
  let len := Z.of_nat (length msg) in
  let zeros := Z.to_nat ((55 - len) mod 64) in
  msg ++ 128 :: repeat 0 zeros ++ bytes_le 8 (Z.land (8 * len) (2 ^ 64 - 1)).

Definition digest (msg : list Z) : list Z :=
  let padded := pad msg in
  let '(State a b c d) := blocks (length padded / 64) init padded in
  bytes_le 4 a ++ bytes_le 4 b ++ bytes_le 4 c ++ bytes_le 4 d.

Definition hex_digit (n : Z) : ascii :=
  nth (Z.to_nat n)
      (list_ascii_of_string "0123456789abcdef") "0"%char.

Fixpoint hex (bytes : list Z) : string :=
  match bytes with
  | [] => ""
  | b :: rest =>
      String (hex_digit (Z.shiftr b 4)) (String (hex_digit (Z.land b 15)) (hex rest))
  end.

End MD5.

(** [md5.update(s, 'utf8')]: the UTF-8 bytes of a string.  A [string] stands
    for a JavaScript string whose code units are all below 256, one [ascii]
    per code unit; a code unit from 128 on takes two bytes. *)
Definition utf8 (s : string) : list Z :=
  flat_map
    (fun c : ascii =>
       let u := Z.of_N (N_of_ascii c) in
       if u <? 128 then [u]
       else [Z.lor 192 (Z.shiftr u 6); Z.lor 128 (Z.land u 63)])
    (list_ascii_of_string s).

(** [createHash('md5').update(s, 'utf8').digest('hex')]. *)
Definition md5_hex (s : string) : string := MD5.hex (MD5.digest (utf8 s)).

(** ** JavaScript values and objects *)

(** The values a caller can hand to [request].  A number is a safe integer
    (magnitude at most 2^53 - 1), which a double holds exactly and JavaScript
    prints digit for digit; a function is known by its source text; an object
    is a plain object, given by its own enumerable properties in enumeration
    order.  Arrays are not modelled. *)
Unset Elimination Schemes.
Inductive value : Type :=
| VUndefined
| VNull
| VBoolean (b : bool)
| VNumber (n : Z)
| VString (s : string)
| VFunction (source : string)
| VObject (properties : list (string * value)).
Set Elimination Schemes.

Definition object : Type := list (string * value).

(** [typeof v === 'function'] *)
Definition is_function (v : value) : bool :=
  match v with VFunction _ => true | _ => false end.

(** [typeof v == 'undefined'] *)
Definition is_undefined (v : value) : bool :=
  match v with VUndefined => true | _ => false end.

(** ToBoolean, as applied by [!v]. *)
Definition truthy (v : value) : bool :=
  match v with
  | VUndefined | VNull => false
  | VBoolean b => b
  | VNumber n => negb (n =? 0)
  | VString s => negb (String.eqb s "")
  | VFunction _ | VObject _ => true
  end.

(** Number::toString on a safe integer. *)
Definition number_to_string (n : Z) : string :=
  NilZero.string_of_int (Z.to_int n).

(** ToString, as applied by string concatenation and by property access. *)
Definition to_string (v : value) : string :=
  match v with
  | VUndefined => "undefined"
  | VNull => "null"
  | VBoolean true => "true"
  | VBoolean false => "false"
  | VNumber n => number_to_string n
  | VString s => s
  | VFunction source => source
  | VObject _ => "[object Object]"
  end.

(** Property tables keyed by name: [o[k]] and [o[k] = v].  A new key goes to
    the end of the enumeration order, an existing one keeps its place (keys
    that are array indices, which an engine enumerates first, are not told
    apart from the others). *)
Fixpoint lookup_key {A : Type} (k : string) (o : list (string * A)) : option A :=
  match o with
  | [] => None
  | (k', v) :: o' => if String.eqb k k' then Some v else lookup_key k o'
  end.

Fixpoint set_key {A : Type} (k : string) (v : A) (o : list (string * A))
  : list (string * A) :=
  match o with
  | [] => [(k, v)]
  | (k', v') :: o' =>
      if String.eqb k k' then (k, v) :: o' else (k', v') :: set_key k v o'
  end.

(** The own property [k] of [o], [undefined] where it has none. *)
Definition obj_get (k : string) (o : object) : value :=
  match lookup_key k o with Some v => v | None => VUndefined end.

Definition obj_set (k : string) (v : value) (o : object) : object :=
  set_key k v o.

Fixpoint obj_delete (k : string) (o : object) : object :=
  match o with
  | [] => []
  | (k', v) :: o' =>
      if String.eqb k k' then obj_delete k o' else (k', v) :: obj_delete k o'
  end.

(** [Object.prototype], which every plain object inherits from: the names
    of its members in Node and, for those that are functions, their
    [length].  [__proto__] reads as the prototype object itself, which has
    no [length]. *)
Definition Object_prototype : list (string * option nat) :=
  [ ("constructor", Some 1%nat);
    ("toString", Some 0%nat);
    ("toLocaleString", Some 0%nat);
    ("valueOf", Some 0%nat);
    ("hasOwnProperty", Some 1%nat);
    ("isPrototypeOf", Some 1%nat);
    ("propertyIsEnumerable", Some 1%nat);
    ("__defineGetter__", Some 2%nat);
    ("__defineSetter__", Some 2%nat);
    ("__lookupGetter__", Some 1%nat);
    ("__lookupSetter__", Some 1%nat);
    ("__proto__", None) ].

(** What a plain object gives under a name it has no property of its own
    for. *)
Definition inherited (k : string) : value :=
  match lookup_key k Object_prototype with
  | Some (Some _) => VFunction "function () { [native code] }"
  | Some None => VObject []
  | None => VUndefined
  end.

(** [o[k]] on a plain object: its own property, else the inherited one. *)
Definition get_property (k : string) (o : object) : value :=
  match lookup_key k o with Some v => v | None => inherited k end.

(** ** lodash 2.x *)

(** The own enumerable properties lodash iterates over in a source; a source
    that is not an object contributes nothing. *)
Definition own_properties (source : value) : object :=
  match source with VObject properties => properties | _ => [] end.

(** One step of [_.defaults]:
    [if (typeof result[index] == 'undefined') result[index] = iterable[index]].
    The read goes through the prototype of [result], so a name that
    [Object.prototype] defines is never assigned. *)
Definition assign_default (result : object) (p : string * value) : object :=
  if is_undefined (get_property (fst p) result)
  then obj_set (fst p) (snd p) result
  else result.

(** [_.defaults(object, source1, source2, ...)]: sources are visited from left
    to right and a property is assigned only while the destination has no
    defined value for it, so the first source that defines a property wins. *)
Definition defaults (destination : object) (sources : list value) : object :=
  fold_left
    (fun result source => fold_left assign_default (own_properties source) result)
    sources destination.

(** [_.zipObject(keys, values)]: [result[keys[index]] = values[index]] for
    every index of [keys].  An assignment to [__proto__] goes to the setter
    of [Object.prototype] and leaves the own properties as they are. *)
Fixpoint zipObject_into (keys : list string) (values : list value)
  (result : object) : object :=
  match keys with
  | [] => result
  | k :: keys' =>
      zipObject_into keys' (tl values)
        (if String.eqb k "__proto__" then result
         else obj_set k (hd VUndefined values) result)
  end.

Definition zipObject (keys : list string) (values : list value) : object :=
  zipObject_into keys values [].

(** [_.pairs(object)]: the list of [[key, value]] pairs. *)
Definition pairs (o : object) : list (string * value) := o.

(** ** Array.prototype.join and Array.prototype.sort *)

(** [join] turns [undefined] and [null] elements into the empty string. *)
Definition join_element (v : value) : string :=
  match v with
  | VUndefined | VNull => ""
  | _ => to_string v
  end.

(** [sort()] without a comparator orders strings by their code units. *)
Definition string_le (s1 s2 : string) : Prop := String.leb s1 s2 = true.

#[global] Instance string_le_dec : RelDecision string_le :=
  fun s1 s2 => bool_eq_dec (String.leb s1 s2) true.

Definition sort (l : list string) : list string := merge_sort string_le l.

(** [strings.join('')] *)
Definition join_empty (l : list string) : string :=
  fold_right String.append "" l.

(** ** The client *)

Record Options : Type := mkOptions {
  domain : string;
  apiRoot : string;
  protocol : string;
  expire : Z
}.

(** [defaultOptions] *)
Definition defaultOptions : Options :=
  {| domain := "mixpanel.com"; apiRoot := "/api/2.0";
     protocol := "https"; expire := 60 |}.

(** [systemOptions] *)
Definition systemOptions : object := [("format", VString "json")].

(** The [options] argument of the constructor: each of the four options is
    given or left out. *)
Record Overrides : Type := mkOverrides {
  o_domain : option string;
  o_apiRoot : option string;
  o_protocol : option string;
  o_expire : option Z
}.

Definition no_overrides : Overrides := mkOverrides None None None None.

Record Client : Type := mkClient {
  key : string;
  secret : string;
  options : Options
}.

Definition with_secret (this : Client) (s : string) : Client :=
  {| key := key this; secret := s; options := options this |}.

(** A call either throws or hands an HTTP request to the transport. *)
Inductive result (A : Type) : Type :=
| Throws (message : string)
| Returns (a : A).
Arguments Throws {A} message.
Arguments Returns {A} a.

(** [new MixpanelExportAPI(key, secret, options)], for a key and a secret
    that are strings. *)
Definition MixpanelExportAPI (k s : string) (o : option Overrides) : result Client :=
  if (String.eqb k "" || String.eqb s "")%bool
  then Throws "Mixpanel export API requires a key and a secret to work."
  else
    let o := match o with Some o => o | None => no_overrides end in
    Returns
      {| key := k; secret := s;
         options :=
           {| domain := default (domain defaultOptions) (o_domain o);
              apiRoot := default (apiRoot defaultOptions) (o_apiRoot o);
              protocol := default (protocol defaultOptions) (o_protocol o);
              expire := default (expire defaultOptions) (o_expire o) |} |}.

(** ** sign *)

(** [joinPairs]: [pair.join('=')] *)
Definition joinPairs (pair : string * value) : string :=
  fst pair ++ "=" ++ join_element (snd pair).

(** [MixpanelExportAPI.prototype.sign] *)
Definition sign (this : Client) (parameters : object) : string :=
  let concatenated :=
    join_empty (sort (map joinPairs (pairs parameters))) ++ secret this in
  md5_hex concatenated.

(** ** request *)

(** The object handed to [url.format]; [pathname] keeps the two arguments of
    [path.join], the second of which is a string. *)
Record UrlObject : Type := mkUrl {
  url_protocol : string;
  url_hostname : string;
  url_pathname : string * value;
  url_query : object
}.

(** The object handed to the [request] HTTP library. *)
Record HttpRequest : Type := mkHttp {
  method : string;
  uri : UrlObject;
  json : bool
}.

(** What a call to [request] has done when it returns: the HTTP request it
    issued and the function the response is forwarded to. *)
Record Sent : Type := mkSent {
  sent_request : HttpRequest;
  sent_callback : value
}.

(** The endpoint specification table of [api_specification], which the
    source loads and which is taken here as given: endpoint name to the names
    of its required arguments. *)
Definition Spec : Type := list (string * list string).

(** *** The prototype the generator leaves *)

(** [endPoint.replace(/\//g, '_')] *)
Fixpoint methodName (endPoint : string) : string :=
  match endPoint with
  | EmptyString => EmptyString
  | String c rest =>
      String (if Ascii.eqb c "/" then "_"%char else c) (methodName rest)
  end.

(** What a property of [MixpanelExportAPI.prototype] holds. *)
Inductive member : Type :=
| MRequest
| MSign
| MVanity (endPoint : string).

(** The prototype once the module is loaded: [request] and [sign], then one
    assignment [prototype[methodName] = ...] per entry of the table. *)
Definition add_vanity (proto : list (string * member))
  (entry : string * list string) : list (string * member) :=
  set_key (methodName (fst entry)) (MVanity (fst entry)) proto.

Definition prototype (spec : Spec) : list (string * member) :=
  fold_left add_vanity spec [("request", MRequest); ("sign", MSign)].

(** *** Lines 83-111: the endpoint and the shape of the call *)

(** What [spec[endPoint]] can be: a row of the table or, for a name the
    table has no row for, what it inherits from [Object.prototype]: a
    function or, under [__proto__], the prototype object. *)
Inductive table_value : Type :=
| RNames (names : list string)
| RFunction (arity : nat)
| RPrototype.

(** [spec[name]] *)
Definition spec_get (spec : Spec) (name : string) : option table_value :=
  match lookup_key name spec with
  | Some names => Some (RNames names)
  | None =>
      match lookup_key name Object_prototype with
      | Some (Some arity) => Some (RFunction arity)
      | Some None => Some RPrototype
      | None => None
      end
  end.

(** [requiredArguments.length]; [None] is [undefined]. *)
Definition required_count (requiredArguments : table_value) : option nat :=
  match requiredArguments with
  | RNames names => Some (length names)
  | RFunction arity => Some arity
  | RPrototype => None
  end.

(** The keys [_.zipObject] reads off [requiredArguments], index by index up
    to its [length]: the names of a row; for a function, which has no
    indexed property, [undefined] each time, that is the property name
    ["undefined"]. *)
Definition required_names (requiredArguments : table_value) : list string :=
  match requiredArguments with
  | RNames names => names
  | RFunction arity => repeat "undefined" arity
  | RPrototype => []
  end.

(** [args.slice(0, n)]; with [n] undefined the slice runs to the end. *)
Definition slice_to (n : option nat) (args : list value) : list value :=
  match n with Some n => firstn n args | None => args end.

(** [args[i]]; an index that is [undefined] or [NaN] finds nothing. *)
Definition element (i : option nat) (args : list value) : value :=
  match i with Some i => nth i args VUndefined | None => VUndefined end.

Definition dquote : string := String (ascii_of_nat 34) "".

Definition unsupported_message (endPoint : value) : string :=
  "The end-point " ++ dquote ++ to_string endPoint ++ dquote
    ++ " is not supported by the mixpanel export api.".

Definition callback_message : string := "A callback is required.".

Definition missing_message : string :=
  "A required argument for this endpoint is missing.".

(** What a call that passes the checks has settled. *)
Record Checked : Type := mkChecked {
  checked_endPoint : value;
  checked_names : list string;
  checked_required : list value;
  checked_options : value;
  checked_callback : value
}.

(** Lines 83-111 of [request]. *)
Definition request_checks (spec : Spec) (arguments : list value)
  : result Checked :=
  let endPoint := hd VUndefined arguments in
  let args := tl arguments in
  match spec_get spec (to_string endPoint) with
  | None => Throws (unsupported_message endPoint)
  | Some requiredArguments =>
      let count := required_count requiredArguments in
      let required := slice_to count args in
      let opts := element count args in
      let callback := element (option_map (fun n => (n + 1)%nat) count) args in
      let '(opts, callback) :=
        if is_function opts then (VObject [], opts) else (opts, callback) in
      if negb (truthy callback) then Throws callback_message
      else if negb (match count with
                    | Some n => (length required =? n)%nat
                    | None => false
                    end)
      then Throws missing_message
      else
        Returns
          {| checked_endPoint := endPoint;
             checked_names := required_names requiredArguments;
             checked_required := required;
             checked_options := opts;
             checked_callback := callback |}
  end.

(** *** Lines 113-139: the parameters, the signature and the request *)

(** Lines 115-121: the parameters before they are signed. *)
Definition assemble (this : Client) (requiredArguments : list string)
  (required : list value) (opts : value) (now : Z) : object :=
  defaults
    [("api_key", VString (key this))]
    [ VObject systemOptions;
      VObject (zipObject requiredArguments required);
      opts;
      VObject [("expire", VNumber (now / 1000 + expire (options this)))] ].

(** The RangeError of a call stack that is used up. *)
Definition range_message : string := "Maximum call stack size exceeded".

(** The TypeError of [path.join] (Node 0.10) for an argument that is not a
    string. *)
Definition path_join_message : string :=
  "Arguments to path.join must be strings".

(** [this.sign(parameters)] at line 123.  The method is looked up in the
    prototype: it is [sign] unless the table has an endpoint of that method
    name, whose vanity method the generator has put in its place.  That
    method calls [this.request(endPoint, parameters)]: where
    [prototype.request] has been replaced as well, the vanity method found
    there calls itself without end and the engine throws; otherwise the
    call is thrown out by the checks of lines 90-111, which a single
    argument that is not a function never passes (lemma
    [nested_call_throws]); a call that passed them would come to line 123
    again, and so on without end. *)
Definition this_sign (spec : Spec) (this : Client) (parameters : object)
  : result value :=
  match lookup_key "sign" (prototype spec) with
  | Some (MVanity endPoint) =>
      match lookup_key "request" (prototype spec) with
      | Some (MVanity _) => Throws range_message
      | _ =>
          match request_checks spec [VString endPoint; VObject parameters] with
          | Throws message => Throws message
          | Returns _ => Throws range_message
          end
      end
  | _ => Returns (VString (sign this parameters))
  end.

(** [MixpanelExportAPI.prototype.request], called with [arguments] while
    [Date.now()] reads [now] milliseconds. *)
Definition request (spec : Spec) (this : Client) (arguments : list value)
  (now : Z) : result Sent :=
  match request_checks spec arguments with
  | Throws message => Throws message
  | Returns checked =>
      let endPoint := checked_endPoint checked in
      let parameters :=
        assemble this (checked_names checked) (checked_required checked)
          (checked_options checked) now in
      match this_sign spec this parameters with
      | Throws message => Throws message
      | Returns signature =>
          let parameters := obj_set "sig" signature parameters in
          match endPoint with
          | VString _ =>
              Returns
                {| sent_request :=
                     {| method := "GET";
                        uri :=
                          {| url_protocol := protocol (options this);
                             url_hostname := domain (options this);
                             url_pathname := (apiRoot (options this), endPoint);
                             url_query := parameters |};
                        json := true |};
                   sent_callback := checked_callback checked |}
          | _ => Throws path_join_message
          end
      end
  end.

(** ** The vanity methods *)



(** ** Notions the properties are stated with *)

(** The first value other than [undefined] that a property list gives [k]. *)
Fixpoint first_defined (k : string) (properties : object) : value :=
  match properties with
  | [] => VUndefined
  | (k', v) :: rest =>
      if (String.eqb k k' && negb (is_undefined v))%bool then v
      else first_defined k rest
  end.

(** The value of [k] in the first source that defines it. *)
Fixpoint first_source (k : string) (sources : list value) : value :=
  match sources with
  | [] => VUndefined
  | source :: rest =>
      let v := first_defined k (own_properties source) in
      if is_undefined v then first_source k rest else v
  end.

(** The options a call resolves to: the value after the required ones,
    unless that value is the callback. *)
Definition call_options (n : nat) (args : list value) : value :=
  if is_function (nth n args VUndefined) then VObject []
  else nth n args VUndefined.

(** The callback a call resolves to. *)
Definition call_callback (n : nat) (args : list value) : value :=
  if is_function (nth n args VUndefined) then nth n args VUndefined
  else nth (n + 1) args VUndefined.

(** [parameters.sig = this.sign(parameters)] *)
Definition signed (this : Client) (parameters : object) : object :=
  obj_set "sig" (VString (sign this parameters)) parameters.

(** The request issued for an endpoint with the signed parameters. *)
Definition http_get (this : Client) (endPoint : value) (query : object)
  : HttpRequest :=
  {| method := "GET";
     uri := {| url_protocol := protocol (options this);
               url_hostname := domain (options this);
               url_pathname := (apiRoot (options this), endPoint);
               url_query := query |};
     json := true |}.

(** The required names a call goes by: those of the table's row or, for
    a name that resolves to an inherited function, one ["undefined"] per
    declared parameter; none where [spec[name]] is undefined or has no
    [length]. *)
Definition table_names (spec : Spec) (name : string) : option (list string) :=
  match spec_get spec name with
  | Some (RNames names) => Some names
  | Some (RFunction arity) => Some (repeat "undefined" arity)
  | _ => None
  end.

(** Lines 123-139 for parameters that have been assembled. *)
Definition sign_and_send (spec : Spec) (this : Client) (endPoint : value)
  (parameters : object) (callback : value) : result Sent :=
  match this_sign spec this parameters with
  | Throws message => Throws message
  | Returns signature =>
      match endPoint with
      | VString _ =>
          Returns
            {| sent_request :=
                 http_get this endPoint (obj_set "sig" signature parameters);
               sent_callback := callback |}
      | _ => Throws path_join_message
      end
  end.

(** A sent request with the [sig] parameter taken out of its query. *)
Definition erase_sig (s : Sent) : Sent :=
  let r := sent_request s in
  {| sent_request :=
       {| method := method r;
          uri := {| url_protocol := url_protocol (uri r);
                    url_hostname := url_hostname (uri r);
                    url_pathname := url_pathname (uri r);
                    url_query := obj_delete "sig" (url_query (uri r)) |};
          json := json r |};
     sent_callback := sent_callback s |}.

(** The characters of a lowercase hexadecimal string. *)
Definition hex_digits : list ascii := list_ascii_of_string "0123456789abcdef".

(** A table to run the model on: three rows of the Mixpanel export API. *)
Definition sample_spec : Spec :=
  [ ("events/top", []);
    ("funnels", ["funnel_id"]);
    ("segmentation", ["event"; "from_date"; "to_date"]) ].

Definition sample_client : Client := mkClient "K" "S" defaultOptions.

Definition cb : value := VFunction "function(err,doc){}".

(** * Properties *)

(** ** MD5 test vectors (RFC 1321) *)

Example md5_empty : md5_hex "" = "d41d8cd98f00b204e9800998ecf8427e".
Proof. vm_compute. reflexivity. Qed.

Example md5_abc : md5_hex "abc" = "900150983cd24fb0d6963f7d28e17f72".
Proof. vm_compute. reflexivity. Qed.

Example md5_two_blocks :
  md5_hex "aaaaaaaaaaaaaaaaaaaaaaaaaaaaaaaaaaaaaaaaaaaaaaaaaaaaaaaaaaaaaaaaaaaaaa"
  = "0f5c6c4e740bfcc08c3c26ccb2673d46".
Proof. vm_compute. reflexivity. Qed.

Example md5_latin1 :
  md5_hex ("caf" ++ String (ascii_of_nat 233) "")
  = "07117fe4a1ebd544965dc19573183da2".
Proof. vm_compute. reflexivity. Qed.

(** ** The client of the examples *)

Example sample_client_created :
  MixpanelExportAPI "K" "S" None = Returns sample_client.
Proof. reflexivity. Qed.

Example constructor_requires_secret :
  MixpanelExportAPI "K" "" None
  = Throws "Mixpanel export API requires a key and a secret to work.".
Proof. reflexivity. Qed.

(** [request('events/top', {type: 'general'}, cb)] at 1700000000.999 s. *)
Example request_events_top :
  request sample_spec sample_client
    [VString "events/top"; VObject [("type", VString "general")]; cb]
    1700000000999
  = Returns
      {| sent_request :=
           {| method := "GET";
              uri :=
                {| url_protocol := "https";
                   url_hostname := "mixpanel.com";
                   url_pathname := ("/api/2.0", VString "events/top");
                   url_query :=
                     [ ("api_key", VString "K");
                       ("format", VString "json");
                       ("type", VString "general");
                       ("expire", VNumber 1700000060);
                       ("sig", VString "66986f4c1dc3e7de727e1e02602813f2") ] |};
              json := true |};
         sent_callback := cb |}.
Proof. vm_compute. reflexivity. Qed.

(** A table with an endpoint named [sign]: the vanity method takes the
    place of the signer and every call ends at line 123. *)
Example request_with_sign_endpoint :
  request [("events/top", []); ("sign", ["event"])] sample_client
    [VString "events/top"; cb] 1700000000999
  = Throws callback_message.
Proof. vm_compute. reflexivity. Qed.

(** An endpoint that is a number: the table resolves it by its string,
    [path.join] does not take it. *)
Example request_with_number_endpoint :
  request [("5", [])] sample_client [VNumber 5; cb] 1700000000999
  = Throws path_join_message.
Proof. vm_compute. reflexivity. Qed.

(** An option named like a member of [Object.prototype] is not copied. *)
Example assemble_inherited_option :
  map fst
    (assemble sample_client [] []
       (VObject [("toString", VString "x"); ("type", VString "general")])
       1700000000999)
  = ["api_key"; "format"; "type"; "expire"].
Proof. reflexivity. Qed.

(** ** The order [sort] uses *)

Lemma string_leb_trans (s1 s2 s3 : string) :
  String.leb s1 s2 = true -> String.leb s2 s3 = true -> String.leb s1 s3 = true.
Proof.
  unfold String.leb. revert s2 s3.
  induction s1 as [|a s1 IH]; intros [|b s2] [|c s3]; simpl; try easy.
  unfold Ascii.compare.
  destruct (N.compare_spec (N_of_ascii a) (N_of_ascii b)) as [Hab|Hab|Hab];
    destruct (N.compare_spec (N_of_ascii b) (N_of_ascii c)) as [Hbc|Hbc|Hbc];
    destruct (N.compare_spec (N_of_ascii a) (N_of_ascii c)) as [Hac|Hac|Hac];
    try easy; try lia.
  apply IH.
Qed.

#[global] Instance string_le_transitive : Transitive string_le.
Proof. intros s1 s2 s3. apply string_leb_trans. Qed.

#[global] Instance string_le_antisymm : AntiSymm eq string_le.
Proof. intros s1 s2. apply String.leb_antisym. Qed.

#[global] Instance string_le_total : Total string_le.
Proof. intros s1 s2. apply String.leb_total. Qed.

Lemma sort_sorted (l : list string) : Sorted string_le (sort l).
Proof. apply Sorted_merge_sort; typeclasses eauto. Qed.

Lemma sort_permutation (l1 l2 : list string) :
  Permutation l1 l2 -> sort l1 = sort l2.
Proof.
  intros Hperm.
  apply (Sorted_unique string_le); try apply sort_sorted.
  unfold sort.
  now rewrite !merge_sort_Permutation.
Qed.

(** ** Property tables *)

Section Tables.

Context {A : Type}.
Implicit Types (o : list (string * A)) (k : string).

Lemma lookup_set_eq k (v : A) o : lookup_key k (set_key k v o) = Some v.
Proof.
  induction o as [|[k' v'] o IH]; simpl.
  - now rewrite String.eqb_refl.
  - destruct (String.eqb k k') eqn:E; simpl.
    + now rewrite String.eqb_refl.
    + now rewrite E.
Qed.

Lemma lookup_set_ne k k' (v : A) o :
  k <> k' -> lookup_key k (set_key k' v o) = lookup_key k o.
Proof.
  intros Hne. induction o as [|[k2 v2] o IH]; simpl.
  - apply String.eqb_neq in Hne. now rewrite Hne.
  - destruct (String.eqb k' k2) eqn:E; simpl.
    + apply String.eqb_eq in E. subst k2.
      apply String.eqb_neq in Hne. now rewrite Hne.
    + now rewrite IH.
Qed.

Lemma keys_set_key k (v : A) o :
  forall k', In k' (map fst (set_key k v o)) <-> k' = k \/ In k' (map fst o).
Proof.
  induction o as [|[k2 v2] o IH]; simpl; intros k'.
  - intuition.
  - destruct (String.eqb_spec k k2) as [->|Hne]; simpl.
    + intuition.
    + rewrite IH. intuition.
Qed.

Lemma NoDup_set_key k (v : A) o :
  List.NoDup (map fst o) -> List.NoDup (map fst (set_key k v o)).
Proof.
  induction o as [|[k2 v2] o IH]; simpl; intros Hnd.
  - constructor; [simpl; tauto|constructor].
  - apply NoDup_cons_iff in Hnd as [Hnotin Hnd].
    destruct (String.eqb_spec k k2) as [->|Hne]; simpl.
    + now apply NoDup_cons_iff.
    + apply NoDup_cons_iff. split; [|now apply IH].
      rewrite keys_set_key. intros [->|Hin]; tauto.
Qed.

End Tables.

Lemma obj_get_set_eq (k : string) (v : value) (o : object) :
  obj_get k (obj_set k v o) = v.
Proof. unfold obj_get, obj_set. now rewrite lookup_set_eq. Qed.

Lemma obj_get_set_ne (k k' : string) (v : value) (o : object) :
  k <> k' -> obj_get k (obj_set k' v o) = obj_get k o.
Proof. intros Hne. unfold obj_get, obj_set. now rewrite lookup_set_ne. Qed.

Lemma obj_delete_set (k : string) (v : value) (o : object) :
  obj_delete k (obj_set k v o) = obj_delete k o.
Proof.
  unfold obj_set. induction o as [|[k' v'] o IH]; simpl.
  - now rewrite String.eqb_refl.
  - destruct (String.eqb k k') eqn:E; simpl.
    + now rewrite String.eqb_refl.
    + now rewrite E, IH.
Qed.

(** ** _.defaults: the first defined value wins *)

Lemma get_property_set_eq (k : string) (v : value) (o : object) :
  get_property k (obj_set k v o) = v.
Proof. unfold get_property, obj_set. now rewrite lookup_set_eq. Qed.

Lemma get_property_set_ne (k k' : string) (v : value) (o : object) :
  k <> k' -> get_property k (obj_set k' v o) = get_property k o.
Proof. intros Hne. unfold get_property, obj_set. now rewrite lookup_set_ne. Qed.

(** Where a read finds nothing, there is no own value either. *)
Lemma get_property_undefined (k : string) (o : object) :
  is_undefined (get_property k o) = true -> obj_get k o = VUndefined.
Proof.
  unfold get_property, obj_get. destruct (lookup_key k o) as [v|]; [|reflexivity].
  now destruct v.
Qed.

Lemma fold_assign_default_property (k : string) (properties result : object) :
  get_property k (fold_left assign_default properties result)
  = if is_undefined (get_property k result) then first_defined k properties
    else get_property k result.
Proof.
  revert result.
  induction properties as [|[k' v] rest IH]; intros result; simpl.
  - now destruct (get_property k result).
  - rewrite IH. unfold assign_default; simpl.
    destruct (String.eqb_spec k k') as [<-|Hne]; simpl.
    + destruct (is_undefined (get_property k result)) eqn:Hres; simpl.
      * rewrite get_property_set_eq. now destruct (is_undefined v).
      * now rewrite Hres.
    + destruct (is_undefined (get_property k' result)).
      * now rewrite get_property_set_ne.
      * reflexivity.
Qed.

Lemma fold_assign_default_get (k : string) (properties result : object) :
  obj_get k (fold_left assign_default properties result)
  = if is_undefined (get_property k result) then first_defined k properties
    else obj_get k result.
Proof.
  revert result.
  induction properties as [|[k' v] rest IH]; intros result; simpl.
  - destruct (is_undefined (get_property k result)) eqn:Hres; [|reflexivity].
    now apply get_property_undefined.
  - rewrite IH. unfold assign_default; simpl.
    destruct (String.eqb_spec k k') as [<-|Hne]; simpl.
    + destruct (is_undefined (get_property k result)) eqn:Hres; simpl.
      * rewrite get_property_set_eq, obj_get_set_eq. now destruct (is_undefined v).
      * now rewrite Hres.
    + destruct (is_undefined (get_property k' result)).
      * now rewrite get_property_set_ne, obj_get_set_ne.
      * reflexivity.
Qed.

Lemma defaults_get (k : string) (sources : list value) (destination : object) :
  obj_get k (defaults destination sources)
  = if is_undefined (get_property k destination) then first_source k sources
    else obj_get k destination.
Proof.
  unfold defaults. revert destination.
  induction sources as [|source rest IH]; intros destination; simpl.
  - destruct (is_undefined (get_property k destination)) eqn:Hd; [|reflexivity].
    now apply get_property_undefined.
  - rewrite IH, fold_assign_default_property, fold_assign_default_get.
    destruct (is_undefined (get_property k destination)) eqn:Hd.
    + reflexivity.
    + now rewrite Hd.
Qed.

Lemma first_defined_not_in (k : string) (o : object) :
  ~ In k (map fst o) -> first_defined k o = VUndefined.
Proof.
  induction o as [|[k' v] rest IH]; simpl; intros Hin; [reflexivity|].
  destruct (String.eqb_spec k k') as [->|Hne]; [tauto|].
  simpl. apply IH. tauto.
Qed.

(** With one binding per key, the first defined value is the bound one. *)
Lemma first_defined_NoDup (k : string) (o : object) :
  List.NoDup (map fst o) -> first_defined k o = obj_get k o.
Proof.
  unfold obj_get.
  induction o as [|[k' v] rest IH]; simpl; intros Hnd; [reflexivity|].
  apply NoDup_cons_iff in Hnd as [Hnotin Hnd].
  destruct (String.eqb_spec k k') as [->|Hne]; simpl.
  - destruct (is_undefined v) eqn:Hv; simpl; [|reflexivity].
    rewrite first_defined_not_in by assumption. now destruct v.
  - now apply IH.
Qed.

(** ** _.zipObject *)

Lemma zipObject_into_keys (keys : list string) (values : list value) (result : object) :
  forall k, In k (map fst (zipObject_into keys values result))
            <-> (In k keys /\ k <> "__proto__") \/ In k (map fst result).
Proof.
  revert values result.
  induction keys as [|k0 keys IH]; intros values result k; simpl.
  - tauto.
  - rewrite IH. destruct (String.eqb_spec k0 "__proto__") as [->|Hne].
    + intuition congruence.
    + unfold obj_set. rewrite keys_set_key. intuition congruence.
Qed.

Lemma zipObject_into_NoDup (keys : list string) (values : list value) (result : object) :
  List.NoDup (map fst result) -> List.NoDup (map fst (zipObject_into keys values result)).
Proof.
  revert values result.
  induction keys as [|k0 keys IH]; intros values result Hnd; simpl; [assumption|].
  apply IH. destruct (String.eqb k0 "__proto__"); [exact Hnd|].
  now apply NoDup_set_key.
Qed.

Lemma zipObject_into_get_other (k : string) (keys : list string)
  (values : list value) (result : object) :
  ~ In k keys ->
  obj_get k (zipObject_into keys values result) = obj_get k result.
Proof.
  revert values result.
  induction keys as [|k0 keys IH]; intros values result Hin; simpl; [reflexivity|].
  simpl in Hin. rewrite IH by tauto.
  destruct (String.eqb k0 "__proto__"); [reflexivity|].
  apply obj_get_set_ne. intros ->. tauto.
Qed.

(** A name declared once receives the value at its own position. *)
Lemma zipObject_into_get (k : string) (v : value) (i : nat)
  (keys : list string) (values : list value) (result : object) :
  List.NoDup keys ->
  k <> "__proto__" ->
  nth_error keys i = Some k ->
  nth_error values i = Some v ->
  obj_get k (zipObject_into keys values result) = v.
Proof.
  revert i values result.
  induction keys as [|k0 keys IH]; intros i values result Hnd Hproto Hk Hv.
  - destruct i; discriminate.
  - apply NoDup_cons_iff in Hnd as [Hnotin Hnd].
    destruct i as [|i]; simpl in *.
    + injection Hk as ->. destruct values as [|v0 values]; [discriminate|].
      injection Hv as ->. simpl.
      rewrite zipObject_into_get_other by assumption.
      apply String.eqb_neq in Hproto. rewrite Hproto.
      apply obj_get_set_eq.
    + destruct values as [|v0 values]; [discriminate|]. simpl.
      now apply (IH i).
Qed.

(** ** The prototype *)

Lemma fold_add_vanity_other (n : string) (spec : Spec)
  (proto : list (string * member)) :
  ~ In n (map (fun entry => methodName (fst entry)) spec) ->
  lookup_key n (fold_left add_vanity spec proto) = lookup_key n proto.
Proof.
  revert proto.
  induction spec as [|entry rest IH]; intros proto Hnotin; simpl; [reflexivity|].
  simpl in Hnotin. rewrite IH by tauto.
  unfold add_vanity. apply lookup_set_ne. intros ->. tauto.
Qed.



(** ** The checks of a call *)

Lemma request_checks_unfold (spec : Spec) (arguments : list value) :
  request_checks spec arguments =
  let endPoint := hd VUndefined arguments in
  let args := tl arguments in
  match spec_get spec (to_string endPoint) with
  | None => Throws (unsupported_message endPoint)
  | Some requiredArguments =>
      match required_count requiredArguments with
      | None => Throws callback_message
      | Some n =>
          if negb (truthy (call_callback n args)) then Throws callback_message
          else if negb (length (firstn n args) =? n)%nat
          then Throws missing_message
          else Returns
                 {| checked_endPoint := endPoint;
                    checked_names := required_names requiredArguments;
                    checked_required := firstn n args;
                    checked_options := call_options n args;
                    checked_callback := call_callback n args |}
      end
  end.
Proof.
  unfold request_checks, call_callback, call_options. simpl.
  destruct (spec_get spec _) as [requiredArguments|]; [|reflexivity].
  destruct (required_count requiredArguments) as [n|]; simpl; [|reflexivity].
  now destruct (is_function (nth n (tl arguments) VUndefined)).
Qed.

(** A call with fewer values than required names has no callback. *)
Lemma short_call_no_callback (n : nat) (args : list value) :
  (length args <= n)%nat -> truthy (call_callback n args) = false.
Proof.
  intros Hlen. unfold call_callback.
  rewrite (nth_overflow args VUndefined Hlen). simpl.
  rewrite nth_overflow by lia. reflexivity.
Qed.

(** Where a callback is found, the required values are all there. *)
Lemma callback_found_values (n : nat) (args : list value) :
  truthy (call_callback n args) = true ->
  (length (firstn n args) =? n)%nat = true.
Proof.
  intros Hcb. apply Nat.eqb_eq. rewrite length_firstn.
  destruct (Nat.le_gt_cases (length args) n) as [Hle|Hgt]; [|lia].
  rewrite short_call_no_callback in Hcb by exact Hle. discriminate.
Qed.

(** The checks throw the unsupported-endpoint or the missing-callback
    error, never the missing-argument one. *)
Lemma request_checks_throws (spec : Spec) (arguments : list value)
  (message : string) :
  request_checks spec arguments = Throws message ->
  message = unsupported_message (hd VUndefined arguments)
  \/ message = callback_message.
Proof.
  rewrite request_checks_unfold. simpl.
  destruct (spec_get spec _) as [requiredArguments|]; [|intros [= <-]; now left].
  destruct (required_count requiredArguments) as [n|]; [|intros [= <-]; now right].
  destruct (truthy (call_callback n (tl arguments))) eqn:Hcb; simpl;
    [|intros [= <-]; now right].
  rewrite (callback_found_values _ _ Hcb). discriminate.
Qed.


(** ** this.sign *)

Lemma this_sign_native (spec : Spec) (this : Client) (parameters : object) :
  lookup_key "sign" (prototype spec) = Some MSign ->
  this_sign spec this parameters = Returns (VString (sign this parameters)).
Proof. intros Hsign. unfold this_sign. now rewrite Hsign. Qed.

Lemma this_sign_returns (spec : Spec) (this : Client) (parameters : object)
  (signature : value) :
  this_sign spec this parameters = Returns signature ->
  signature = VString (sign this parameters).
Proof.
  unfold this_sign.
  destruct (lookup_key "sign" (prototype spec)) as [[| |endPoint]|];
    try (now intros [= <-]).
  destruct (lookup_key "request" (prototype spec)) as [[| |other]|];
    try discriminate;
    destruct (request_checks spec _); discriminate.
Qed.

Lemma this_sign_throws (spec : Spec) (this : Client) (parameters : object)
  (message : string) :
  this_sign spec this parameters = Throws message ->
  message <> missing_message.
Proof.
  unfold this_sign.
  destruct (lookup_key "sign" (prototype spec)) as [[| |endPoint]|];
    try discriminate.
  destruct (lookup_key "request" (prototype spec)) as [[| |other]|];
    try (intros [= <-]; discriminate);
    destruct (request_checks spec _) as [m|c] eqn:Hchecks;
    intros [= <-]; try discriminate;
    apply request_checks_throws in Hchecks as [->| ->]; discriminate.
Qed.

(** Whether [this.sign] throws, and what, is the same for every client;
    where it returns, it returns what [sign] gives for the client. *)
Lemma this_sign_secret (spec : Spec) (c1 c2 : Client) (parameters : object) :
  match this_sign spec c1 parameters, this_sign spec c2 parameters with
  | Throws m1, Throws m2 => m1 = m2
  | Returns v1, Returns v2 =>
      v1 = VString (sign c1 parameters) /\ v2 = VString (sign c2 parameters)
  | _, _ => False
  end.
Proof.
  unfold this_sign.
  destruct (lookup_key "sign" (prototype spec)) as [[| |endPoint]|];
    try (split; reflexivity).
  destruct (lookup_key "request" (prototype spec)) as [[| |other]|];
    try reflexivity;
    destruct (request_checks spec _); reflexivity.
Qed.

(** ** What a call that returns has done *)

Lemma request_unfold (spec : Spec) (this : Client) (arguments : list value) (now : Z) :
  request spec this arguments now =
  let endPoint := hd VUndefined arguments in
  let args := tl arguments in
  match spec_get spec (to_string endPoint) with
  | None => Throws (unsupported_message endPoint)
  | Some requiredArguments =>
      match required_count requiredArguments with
      | None => Throws callback_message
      | Some n =>
          if negb (truthy (call_callback n args)) then Throws callback_message
          else if negb (length (firstn n args) =? n)%nat
          then Throws missing_message
          else sign_and_send spec this endPoint
                 (assemble this (required_names requiredArguments)
                    (firstn n args) (call_options n args) now)
                 (call_callback n args)
      end
  end.
Proof.
  unfold request. rewrite request_checks_unfold. simpl.
  destruct (spec_get spec _) as [requiredArguments|]; [|reflexivity].
  destruct (required_count requiredArguments) as [n|]; [|reflexivity].
  destruct (negb (truthy _)); [reflexivity|].
  destruct (negb (_ =? _)%nat); reflexivity.
Qed.

Lemma table_names_own (spec : Spec) (name : string) (names : list string) :
  lookup_key name spec = Some names -> table_names spec name = Some names.
Proof. intros Hspec. unfold table_names, spec_get. now rewrite Hspec. Qed.

(** The table read as names: what [spec_get] gives and its count. *)
Lemma table_names_spec (spec : Spec) (name : string) :
  match spec_get spec name with
  | None => table_names spec name = None
  | Some requiredArguments =>
      match required_count requiredArguments with
      | None => table_names spec name = None
      | Some n =>
          table_names spec name = Some (required_names requiredArguments)
          /\ length (required_names requiredArguments) = n
      end
  end.
Proof.
  unfold table_names.
  destruct (spec_get spec name) as [[names|arity|]|]; simpl; try reflexivity.
  - now split.
  - split; [reflexivity|apply repeat_length].
Qed.

(** The call a string endpoint, resolved names, the original [sign] and a
    callback make: the request is sent. *)
Lemma request_sends (spec : Spec) (this : Client) (e : string)
  (args : list value) (now : Z) (names : list string) :
  table_names spec e = Some names ->
  lookup_key "sign" (prototype spec) = Some MSign ->
  truthy (call_callback (length names) args) = true ->
  request spec this (VString e :: args) now
  = Returns
      {| sent_request :=
           http_get this (VString e)
             (signed this
                (assemble this names (firstn (length names) args)
                   (call_options (length names) args) now));
         sent_callback := call_callback (length names) args |}.
Proof.
  intros Hnames Hsign Hcb. rewrite request_unfold. simpl.
  pose proof (table_names_spec spec e) as Htable.
  destruct (spec_get spec e) as [requiredArguments|];
    [|rewrite Htable in Hnames; discriminate].
  destruct (required_count requiredArguments) as [n|];
    [|rewrite Htable in Hnames; discriminate].
  destruct Htable as [Htable Hlen]. rewrite Htable in Hnames.
  injection Hnames as <-. subst n.
  rewrite Hcb, (callback_found_values _ _ Hcb). simpl.
  unfold sign_and_send. now rewrite (this_sign_native _ _ _ Hsign).
Qed.

Lemma request_returns (spec : Spec) (this : Client) (arguments : list value)
  (now : Z) (s : Sent) :
  request spec this arguments now = Returns s ->
  exists names,
    table_names spec (to_string (hd VUndefined arguments)) = Some names
    /\ (length names < length (tl arguments))%nat
    /\ truthy (call_callback (length names) (tl arguments)) = true
    /\ s = {| sent_request :=
                http_get this (hd VUndefined arguments)
                  (signed this
                     (assemble this names
                        (firstn (length names) (tl arguments))
                        (call_options (length names) (tl arguments)) now));
              sent_callback := call_callback (length names) (tl arguments) |}.
Proof.
  rewrite request_unfold. simpl.
  pose proof (table_names_spec spec (to_string (hd VUndefined arguments)))
    as Htable.
  destruct (spec_get spec _) as [requiredArguments|]; [|discriminate].
  destruct (required_count requiredArguments) as [n|]; [|discriminate].
  destruct Htable as [Htable Hlen]. subst n.
  destruct (truthy (call_callback _ (tl arguments))) eqn:Hcb;
    simpl; [|discriminate].
  rewrite (callback_found_values _ _ Hcb). simpl.
  unfold sign_and_send.
  destruct (this_sign spec this _) as [m|signature] eqn:Hsign; [discriminate|].
  apply this_sign_returns in Hsign. subst signature.
  destruct (hd VUndefined arguments) eqn:Hend; try discriminate.
  intros [= <-]. exists (required_names requiredArguments).
  split; [exact Htable|]. split; [|split; [exact Hcb|reflexivity]].
  destruct (Nat.le_gt_cases (length (tl arguments))
              (length (required_names requiredArguments))) as [Hle|Hgt];
    [|exact Hgt].
  rewrite short_call_no_callback in Hcb by exact Hle. discriminate.
Qed.

(** A call that returns was made on a string and signed by [sign]. *)
Lemma request_returns_string (spec : Spec) (this : Client)
  (arguments : list value) (now : Z) (s : Sent) :
  request spec this arguments now = Returns s ->
  exists e, hd VUndefined arguments = VString e.
Proof.
  rewrite request_unfold. simpl.
  destruct (spec_get spec _) as [requiredArguments|]; [|discriminate].
  destruct (required_count requiredArguments) as [n|]; [|discriminate].
  destruct (negb (truthy _)); [discriminate|].
  destruct (negb (_ =? _)%nat); [discriminate|].
  unfold sign_and_send. destruct (this_sign spec this _); [discriminate|].
  destruct (hd VUndefined arguments); try discriminate. eauto.
Qed.

(** The parameters a call assembles, read key by key. *)
Lemma assemble_get (k : string) (this : Client) (names : list string)
  (required : list value) (opts : value) (now : Z) :
  obj_get k (assemble this names required opts now)
  = if String.eqb k "api_key" then VString (key this)
    else if is_undefined (inherited k)
    then first_source k
           [ VObject systemOptions;
             VObject (zipObject names required);
             opts;
             VObject [("expire", VNumber (now / 1000 + expire (options this)))] ]
    else VUndefined.
Proof.
  unfold assemble. rewrite defaults_get. unfold obj_get, get_property. simpl.
  now destruct (String.eqb k "api_key").
Qed.

Lemma signed_get (k : string) (this : Client) (parameters : object) :
  k <> "sig" -> obj_get k (signed this parameters) = obj_get k parameters.
Proof. intros Hne. unfold signed. now apply obj_get_set_ne. Qed.

(** Runs a call on a string endpoint that the table resolves. *)
Ltac run_request := eapply request_sends; [reflexivity|reflexivity|reflexivity].

(** * The claims *)

(** ** sign *)

(** C3.  [sign] on the parameters [{api_key: "k", format: "json",
    expire: 1000}] of a client whose secret is ["s"] returns the MD5 digest,
    in lowercase hexadecimal and 32 characters long, of the UTF-8 bytes of
    ["api_key=kexpire=1000format=json"] followed by ["s"]; the digest is
    [8d880afa11a211427e9f6e8b4fcf3f5a]. *)
Theorem sign_known_vector (k : string) (o : Options) :
  let signature :=
    sign (mkClient k "s" o)
      [("api_key", VString "k"); ("format", VString "json");
       ("expire", VNumber 1000)] in
  signature
  = MD5.hex (MD5.digest (utf8 ("api_key=kexpire=1000format=json" ++ "s")))
  /\ signature = "8d880afa11a211427e9f6e8b4fcf3f5a"
  /\ String.length signature = 32%nat
  /\ Forall (fun c => In c (list_ascii_of_string "0123456789abcdef"))
       (list_ascii_of_string signature).
Proof.
  assert (H : sign (mkClient k "s" o)
                [("api_key", VString "k"); ("format", VString "json");
                 ("expire", VNumber 1000)]
              = "8d880afa11a211427e9f6e8b4fcf3f5a")
    by (vm_compute; reflexivity).
  cbv zeta. rewrite H.
  split; [vm_compute; reflexivity|].
  split; [reflexivity|].
  split; [reflexivity|].
  repeat (constructor; [simpl; tauto|]). constructor.
Qed.

(** C4.  For every secret, two parameter maps holding the same key/value
    pairs in different insertion orders get the same signature: the joined
    [key=value] strings are sorted before they are concatenated. *)
Theorem sign_permutation (this : Client) (p1 p2 : object) :
  Permutation p1 p2 -> sign this p1 = sign this p2.
Proof.
  intros Hperm. unfold sign, pairs.
  now rewrite (sort_permutation (map joinPairs p1) (map joinPairs p2))
    by (now apply Permutation_map).
Qed.

Lemma sign_permutation_witness :
  sign (mkClient "K" "secret" defaultOptions)
    [("b", VNumber 2); ("a", VNumber 1)]
  = sign (mkClient "K" "secret" defaultOptions)
      [("a", VNumber 1); ("b", VNumber 2)].
Proof. apply sign_permutation. apply perm_swap. Defined.

(** ** request: errors *)

(** A name that [spec[endPoint]] does not resolve, in the table or through
    its prototype, is thrown out before anything is assembled, signed or
    sent. *)
Lemma request_unresolved (spec : Spec) (this : Client)
  (arguments : list value) (now : Z) :
  spec_get spec (to_string (hd VUndefined arguments)) = None ->
  request spec this arguments now
  = Throws (unsupported_message (hd VUndefined arguments)).
Proof. intros Hnone. rewrite request_unfold. simpl. now rewrite Hnone. Qed.

(** C7.  The code does not do what the claim says for a name the table
    inherits from [Object.prototype]: [toString] is not an endpoint of the
    table, yet [request('toString', cb)] passes the test of line 92, is
    signed and is sent. *)
Theorem request_inherited_name :
  lookup_key "toString" sample_spec = None
  /\ request sample_spec sample_client [VString "toString"; cb] 1700000000999
     = Returns
         {| sent_request :=
              http_get sample_client (VString "toString")
                (signed sample_client
                   (assemble sample_client [] [] (VObject []) 1700000000999));
            sent_callback := cb |}.
Proof. split; [reflexivity|]. run_request. Qed.

(** C10.  On a supported endpoint with [N] required names, a call with fewer
    than [N] values after the endpoint name loses them all, callback
    included, to the slice of required values, and throws the
    missing-callback error; and no call at all throws the
    missing-required-argument error. *)
Theorem request_short_call (spec : Spec) (this : Client)
  (arguments : list value) (now : Z) (names : list string) :
  lookup_key (to_string (hd VUndefined arguments)) spec = Some names ->
  (length (tl arguments) < length names)%nat ->
  firstn (length names) (tl arguments) = tl arguments
  /\ request spec this arguments now = Throws callback_message
  /\ (forall spec' this' arguments' now',
        request spec' this' arguments' now' <> Throws missing_message).
Proof.
  intros Hspec Hlen. split; [|split].
  - apply firstn_all2. lia.
  - rewrite request_unfold. simpl. unfold spec_get. rewrite Hspec. simpl.
    rewrite short_call_no_callback by lia. reflexivity.
  - intros spec' this' arguments' now'. rewrite request_unfold. simpl.
    destruct (spec_get spec' _) as [requiredArguments|]; [|discriminate].
    destruct (required_count requiredArguments) as [n|]; [|discriminate].
    destruct (truthy (call_callback n (tl arguments'))) eqn:Hcb;
      simpl; [|discriminate].
    rewrite (callback_found_values _ _ Hcb). simpl. unfold sign_and_send.
    destruct (this_sign spec' this' _) as [m|signature] eqn:Hsign.
    + intros [= ->]. now apply this_sign_throws in Hsign.
    + destruct (hd VUndefined arguments'); discriminate.
Qed.

Lemma request_short_call_witness :
  firstn 3 [VString "signup"; cb] = [VString "signup"; cb]
  /\ request sample_spec sample_client
       [VString "segmentation"; VString "signup"; cb] 1700000000999
     = Throws callback_message
  /\ (forall spec' this' arguments' now',
        request spec' this' arguments' now' <> Throws missing_message).
Proof.
  apply (request_short_call sample_spec sample_client
           [VString "segmentation"; VString "signup"; cb] 1700000000999
           ["event"; "from_date"; "to_date"]).
  - reflexivity.
  - simpl. lia.
Defined.

(** ** request: the assembled parameters *)

(** C6.  In every call that returns, [format] is ["json"] in the parameters
    that are signed and in the query that is sent, whatever the options
    say. *)
Theorem request_format_json (spec : Spec) (this : Client)
  (arguments : list value) (now : Z) (s : Sent) :
  request spec this arguments now = Returns s ->
  exists parameters,
    url_query (uri (sent_request s)) = signed this parameters
    /\ obj_get "format" parameters = VString "json"
    /\ obj_get "format" (url_query (uri (sent_request s))) = VString "json".
Proof.
  intros Hret. apply request_returns in Hret as (names & _ & _ & _ & ->).
  eexists. split; [reflexivity|]. simpl.
  rewrite signed_get by discriminate.
  rewrite assemble_get. simpl. split; reflexivity.
Qed.

Lemma request_format_json_witness :
  exists s,
    request sample_spec sample_client
      [VString "events/top"; VObject [("format", VString "csv")]; cb]
      1700000000999 = Returns s
    /\ exists parameters,
         url_query (uri (sent_request s)) = signed sample_client parameters
         /\ obj_get "format" parameters = VString "json"
         /\ obj_get "format" (url_query (uri (sent_request s))) = VString "json".
Proof.
  eexists. split.
  - run_request.
  - apply (request_format_json sample_spec sample_client
             [VString "events/top"; VObject [("format", VString "csv")]; cb]
             1700000000999).
    run_request.
Defined.

(** C1, as the claim has it, fails: with options [{expire: 1}] the parameters
    hold [expire = 1], the caller's value, not the time of the call plus the
    configured 60 seconds. *)
Lemma request_expire_counterexample :
  exists s,
    request sample_spec sample_client
      [VString "events/top"; VObject [("expire", VNumber 1)]; cb]
      1700000000999 = Returns s
    /\ obj_get "expire" (url_query (uri (sent_request s))) = VNumber 1
    /\ obj_get "expire" (url_query (uri (sent_request s)))
       <> VNumber (1700000000999 / 1000 + expire (options sample_client)).
Proof.
  eexists. split; [run_request|].
  simpl. rewrite signed_get by discriminate. rewrite assemble_get.
  split; [reflexivity|discriminate].
Qed.

(** C1, as the code has it.  In a call that returns, on an endpoint with no
    required argument named [expire], the [expire] of the assembled
    parameters is the one the options give when they give one other than
    [undefined]; the time of the call in seconds plus the configured expire
    seconds is the default, used when they give none. *)
Theorem request_expire (spec : Spec) (this : Client) (arguments : list value)
  (now : Z) (s : Sent) (names : list string) :
  request spec this arguments now = Returns s ->
  lookup_key (to_string (hd VUndefined arguments)) spec = Some names ->
  ~ In "expire" names ->
  List.NoDup
    (map fst (own_properties (call_options (length names) (tl arguments)))) ->
  exists parameters,
    url_query (uri (sent_request s)) = signed this parameters
    /\ obj_get "expire" parameters
       = (let given :=
            obj_get "expire"
              (own_properties (call_options (length names) (tl arguments))) in
          if is_undefined given
          then VNumber (now / 1000 + expire (options this))
          else given).
Proof.
  intros Hret Hspec Hnotin Hnd.
  apply request_returns in Hret as (names' & Hspec' & _ & _ & ->).
  rewrite (table_names_own _ _ _ Hspec) in Hspec'. injection Hspec' as <-.
  eexists. split; [reflexivity|].
  rewrite assemble_get. simpl.
  rewrite (first_defined_not_in "expire" (zipObject _ _)).
  - simpl. rewrite (first_defined_NoDup _ _ Hnd).
    now destruct (is_undefined (obj_get "expire" _)).
  - unfold zipObject. rewrite zipObject_into_keys. simpl. tauto.
Qed.

Lemma request_expire_witness :
  exists s,
    request sample_spec sample_client
      [VString "events/top"; VObject [("expire", VNumber 1)]; cb]
      1700000000999 = Returns s
    /\ exists parameters,
         url_query (uri (sent_request s)) = signed sample_client parameters
         /\ obj_get "expire" parameters = VNumber 1.
Proof.
  eexists. split; [run_request|].
  apply (request_expire sample_spec sample_client
           [VString "events/top"; VObject [("expire", VNumber 1)]; cb]
           1700000000999 _ []).
  - run_request.
  - reflexivity.
  - simpl. tauto.
  - simpl. repeat constructor. simpl. tauto.
Defined.

(** C2, as the claim has it, fails: [funnel_id] is required by [funnels] and
    also given in the options; the parameters hold the positional value [5],
    not the options' [7]. *)
Lemma request_options_counterexample :
  exists s,
    request sample_spec sample_client
      [VString "funnels"; VNumber 5; VObject [("funnel_id", VNumber 7)]; cb]
      1700000000999 = Returns s
    /\ obj_get "funnel_id" (url_query (uri (sent_request s))) = VNumber 5
    /\ obj_get "funnel_id" (url_query (uri (sent_request s))) <> VNumber 7.
Proof.
  eexists. split; [run_request|].
  simpl. rewrite signed_get by discriminate. rewrite assemble_get.
  split; [reflexivity|discriminate].
Qed.

(** C2, as the code has it.  In a call that returns, a required argument [k]
    (other than [api_key] and [format], and not the name of a member of
    [Object.prototype]) whose positional value is not [undefined] keeps that
    value in the assembled parameters, whatever the options give for [k]. *)
Theorem request_required_wins (spec : Spec) (this : Client)
  (arguments : list value) (now : Z) (s : Sent) (names : list string)
  (i : nat) (k : string) (v : value) :
  request spec this arguments now = Returns s ->
  lookup_key (to_string (hd VUndefined arguments)) spec = Some names ->
  List.NoDup names ->
  nth_error names i = Some k ->
  nth_error (tl arguments) i = Some v ->
  is_undefined v = false ->
  k <> "api_key" ->
  k <> "format" ->
  inherited k = VUndefined ->
  exists parameters,
    url_query (uri (sent_request s)) = signed this parameters
    /\ obj_get k parameters = v.
Proof.
  intros Hret Hspec Hnd Hk Hv Hdef Hkey Hformat Hown.
  apply request_returns in Hret as (names' & Hspec' & _ & _ & ->).
  rewrite (table_names_own _ _ _ Hspec) in Hspec'. injection Hspec' as <-.
  eexists. split; [reflexivity|].
  rewrite assemble_get, Hown.
  apply String.eqb_neq in Hkey, Hformat. rewrite Hkey. simpl. rewrite Hformat.
  simpl.
  assert (Hproto : k <> "__proto__") by (intros ->; discriminate Hown).
  assert (Hi : (i < length names)%nat)
    by (apply nth_error_Some; rewrite Hk; discriminate).
  assert (Hzip : obj_get k (zipObject names (firstn (length names) (tl arguments))) = v).
  { apply (zipObject_into_get k v i); [assumption|assumption|assumption|].
    rewrite nth_error_firstn.
    apply Nat.ltb_lt in Hi. now rewrite Hi. }
  rewrite first_defined_NoDup
    by (apply zipObject_into_NoDup; constructor).
  rewrite Hzip, Hdef. reflexivity.
Qed.

Lemma request_required_wins_witness :
  exists s,
    request sample_spec sample_client
      [VString "funnels"; VNumber 5; VObject [("funnel_id", VNumber 7)]; cb]
      1700000000999 = Returns s
    /\ exists parameters,
         url_query (uri (sent_request s)) = signed sample_client parameters
         /\ obj_get "funnel_id" parameters = VNumber 5.
Proof.
  eexists. split; [run_request|].
  apply (request_required_wins sample_spec sample_client
           [VString "funnels"; VNumber 5; VObject [("funnel_id", VNumber 7)]; cb]
           1700000000999 _ ["funnel_id"] 0 "funnel_id" (VNumber 5)).
  - run_request.
  - reflexivity.
  - repeat constructor. simpl. tauto.
  - reflexivity.
  - reflexivity.
  - reflexivity.
  - discriminate.
  - discriminate.
  - reflexivity.
Defined.




(** ** The secret *)

(** C8.  Two clients that differ in their secret only throw the same error
    or send the same request up to [sig]: the parameters that are signed are
    the same for both, each query is those parameters with its own [sig]
    set, and the requests are equal once [sig] is taken out. *)
Theorem request_secret_only_in_sig (spec : Spec) (this : Client)
  (s1 s2 : string) (arguments : list value) (now : Z) :
  match request spec (with_secret this s1) arguments now,
        request spec (with_secret this s2) arguments now with
  | Throws m1, Throws m2 => m1 = m2
  | Returns r1, Returns r2 =>
      (exists parameters,
         url_query (uri (sent_request r1))
         = obj_set "sig" (VString (sign (with_secret this s1) parameters)) parameters
         /\ url_query (uri (sent_request r2))
            = obj_set "sig" (VString (sign (with_secret this s2) parameters)) parameters)
      /\ erase_sig r1 = erase_sig r2
  | _, _ => False
  end.
Proof.
  rewrite !request_unfold. simpl.
  destruct (spec_get spec _) as [requiredArguments|]; [|reflexivity].
  destruct (required_count requiredArguments) as [n|]; [|reflexivity].
  destruct (negb (truthy _)); [reflexivity|].
  destruct (negb (_ =? _)%nat); [reflexivity|].
  unfold sign_and_send.
  change (assemble (with_secret this s1)) with (assemble this).
  change (assemble (with_secret this s2)) with (assemble this).
  pose proof (this_sign_secret spec (with_secret this s1) (with_secret this s2)
                (assemble this (required_names requiredArguments)
                   (firstn n (tl arguments)) (call_options n (tl arguments)) now))
    as Hsign.
  destruct (this_sign spec (with_secret this s1) _) as [m1|v1];
    destruct (this_sign spec (with_secret this s2) _) as [m2|v2];
    try contradiction; [exact Hsign|].
  destruct Hsign as [-> ->].
  destruct (hd VUndefined arguments); try reflexivity.
  split.
  - eexists. split; reflexivity.
  - unfold erase_sig. simpl. now rewrite !obj_delete_set.
Qed.

(** ** The vanity methods *)




(** * Further properties of the code *)

(** ** request: options and callback *)

(** A call with all its required values and an options object, but nothing
    after it, throws the missing-callback error. *)
Theorem request_options_without_callback (spec : Spec) (this : Client)
  (endPoint : value) (required : list value) (opts : value) (now : Z)
  (names : list string) :
  lookup_key (to_string endPoint) spec = Some names ->
  length required = length names ->
  is_function opts = false ->
  request spec this (endPoint :: required ++ [opts]) now = Throws callback_message.
Proof.
  intros Hspec Hlen Hopts. rewrite request_unfold. simpl.
  unfold spec_get. rewrite Hspec. simpl.
  unfold call_callback.
  rewrite <- Hlen, app_nth2, Nat.sub_diag by lia. simpl. rewrite Hopts.
  rewrite nth_overflow by (rewrite length_app; simpl; lia).
  reflexivity.
Qed.

Lemma request_options_without_callback_witness :
  request sample_spec sample_client
    (VString "funnels" :: [VNumber 12345]
       ++ [VObject [("from_date", VString "2014-03-01")]]) 1700000000999
  = Throws callback_message.
Proof.
  apply (request_options_without_callback sample_spec sample_client
           (VString "funnels") [VNumber 12345]
           (VObject [("from_date", VString "2014-03-01")]) 1700000000999
           ["funnel_id"]); reflexivity.
Defined.

(** Leaving the options out is the same as passing an empty object: with a
    function right after the required values, whatever follows it, the call
    does what it does with [{}] and that function. *)
Theorem request_options_omitted (spec : Spec) (this : Client)
  (endPoint : value) (required : list value) (callback : value)
  (rest : list value) (now : Z) (names : list string) :
  lookup_key (to_string endPoint) spec = Some names ->
  length required = length names ->
  is_function callback = true ->
  request spec this (endPoint :: required ++ callback :: rest) now
  = request spec this (endPoint :: required ++ [VObject []; callback]) now.
Proof.
  intros Hspec Hlen Hfun. rewrite !request_unfold. simpl.
  unfold spec_get. rewrite Hspec. simpl.
  assert (Hslot : forall tail,
            nth (length names) (required ++ tail) VUndefined
            = nth 0 tail VUndefined).
  { intros tail. rewrite <- Hlen, app_nth2 by lia. now rewrite Nat.sub_diag. }
  assert (Hnext : forall tail,
            nth (length names + 1) (required ++ tail) VUndefined
            = nth 1 tail VUndefined).
  { intros tail. rewrite <- Hlen, app_nth2 by lia.
    now replace (length required + 1 - length required)%nat with 1%nat by lia. }
  assert (Htake : forall tail,
            firstn (length names) (required ++ tail) = required).
  { intros tail. rewrite <- Hlen, firstn_app, Nat.sub_diag, firstn_all.
    simpl. apply app_nil_r. }
  unfold call_callback, call_options.
  rewrite !Hslot, !Hnext, !Htake. simpl. rewrite Hfun.
  destruct callback; try discriminate. reflexivity.
Qed.

Lemma request_options_omitted_witness :
  request sample_spec sample_client
    (VString "funnels" :: [VNumber 12345] ++ cb :: [VString "ignored"])
    1700000000999
  = request sample_spec sample_client
      (VString "funnels" :: [VNumber 12345] ++ [VObject []; cb]) 1700000000999.
Proof.
  apply (request_options_omitted sample_spec sample_client (VString "funnels")
           [VNumber 12345] cb [VString "ignored"] 1700000000999 ["funnel_id"]);
    reflexivity.
Defined.

(** ** request: the layers of the assembled parameters *)

(** The parameters key by key, for options with one entry per key: the
    client's key under [api_key]; nothing under a name that
    [Object.prototype] defines, whoever gives it; ["json"] under [format];
    elsewhere the required value bound to the key unless it is [undefined],
    else the options' value unless it is [undefined], else the computed
    expiry under [expire] and nothing under any other key. *)
Theorem assemble_precedence (this : Client) (names : list string)
  (required : list value) (o : object) (now : Z) (k : string) :
  List.NoDup (map fst o) ->
  obj_get k (assemble this names required (VObject o) now)
  = if String.eqb k "api_key" then VString (key this)
    else if negb (is_undefined (inherited k)) then VUndefined
    else if String.eqb k "format" then VString "json"
    else if negb (is_undefined (obj_get k (zipObject names required)))
    then obj_get k (zipObject names required)
    else if negb (is_undefined (obj_get k o)) then obj_get k o
    else if String.eqb k "expire"
    then VNumber (now / 1000 + expire (options this))
    else VUndefined.
Proof.
  intros Hnd. rewrite assemble_get.
  destruct (String.eqb k "api_key"); [reflexivity|].
  destruct (is_undefined (inherited k)); [|reflexivity]. simpl.
  destruct (String.eqb k "format"); [reflexivity|]. simpl.
  rewrite (first_defined_NoDup k (zipObject names required))
    by (apply zipObject_into_NoDup; constructor).
  destruct (is_undefined (obj_get k (zipObject names required))); [|reflexivity].
  simpl. rewrite (first_defined_NoDup k o Hnd).
  destruct (is_undefined (obj_get k o)); [|reflexivity].
  simpl. now destruct (String.eqb k "expire").
Qed.

Lemma assemble_precedence_witness :
  obj_get "from_date"
    (assemble sample_client ["funnel_id"] [VNumber 12345]
       (VObject [("from_date", VString "2014-03-01")]) 1700000000999)
  = VString "2014-03-01".
Proof.
  apply (assemble_precedence sample_client ["funnel_id"] [VNumber 12345]
           [("from_date", VString "2014-03-01")] 1700000000999 "from_date").
  simpl. repeat constructor. simpl. tauto.
Defined.

(** In every call that returns, [api_key] is the client's key, whatever the
    required names and the options are. *)
Theorem request_api_key (spec : Spec) (this : Client) (arguments : list value)
  (now : Z) (s : Sent) :
  request spec this arguments now = Returns s ->
  obj_get "api_key" (url_query (uri (sent_request s))) = VString (key this).
Proof.
  intros Hret. apply request_returns in Hret as (names & _ & _ & _ & ->).
  simpl. rewrite signed_get by discriminate. now rewrite assemble_get.
Qed.

Lemma request_api_key_witness :
  exists s,
    request sample_spec sample_client
      [VString "events/top"; VObject [("api_key", VString "other")]; cb]
      1700000000999 = Returns s
    /\ obj_get "api_key" (url_query (uri (sent_request s))) = VString "K".
Proof.
  eexists. split; [run_request|].
  apply (request_api_key sample_spec sample_client
           [VString "events/top"; VObject [("api_key", VString "other")]; cb]
           1700000000999).
  run_request.
Defined.

Lemma get_property_defined (k : string) (o : object) :
  is_undefined (get_property k o) = false ->
  In k (map fst o) \/ is_undefined (inherited k) = false.
Proof.
  unfold get_property. induction o as [|[k' v] o IH]; simpl; [now right|].
  destruct (String.eqb_spec k k') as [->|Hne]; [now left; left|].
  intros H. destruct (IH H); [left; now right|now right].
Qed.

Lemma get_property_no_key (k : string) (o : object) :
  is_undefined (get_property k o) = true ->
  In k (map fst o) \/ is_undefined (inherited k) = true.
Proof.
  unfold get_property. induction o as [|[k' v] o IH]; simpl; [now right|].
  destruct (String.eqb_spec k k') as [->|Hne]; [now left; left|].
  intros H. destruct (IH H); [left; now right|now right].
Qed.

(** The keys after a source has been read: those there before, and those of
    the source that [Object.prototype] does not define. *)
Lemma fold_assign_default_keys (properties result : object) (k : string) :
  In k (map fst (fold_left assign_default properties result))
  <-> In k (map fst result)
      \/ (In k (map fst properties) /\ is_undefined (inherited k) = true).
Proof.
  revert result.
  induction properties as [|[k' v] properties IH]; intros result; simpl.
  - tauto.
  - rewrite IH. unfold assign_default. simpl.
    destruct (is_undefined (get_property k' result)) eqn:Hdef.
    + unfold obj_set. rewrite keys_set_key.
      apply get_property_no_key in Hdef. split.
      * intros [[->|H]|[H Hk]]; tauto.
      * intros [H|[[<-|H] Hk]]; tauto.
    + apply get_property_defined in Hdef. split.
      * tauto.
      * intros [H|[[<-|H] Hk]]; intuition congruence.
Qed.

Lemma assign_default_NoDup (result : object) (p : string * value) :
  List.NoDup (map fst result) -> List.NoDup (map fst (assign_default result p)).
Proof.
  intros Hnd. unfold assign_default.
  destruct (is_undefined (get_property (fst p) result)); [|exact Hnd].
  now apply NoDup_set_key.
Qed.

Lemma defaults_keys (sources : list value) (destination : object) (k : string) :
  In k (map fst (defaults destination sources))
  <-> In k (map fst destination)
      \/ (is_undefined (inherited k) = true
          /\ exists source,
               In source sources /\ In k (map fst (own_properties source))).
Proof.
  unfold defaults. revert destination.
  induction sources as [|source rest IH]; intros destination; simpl.
  - split; [now left|]. intros [H|(_ & source & [] & _)]. exact H.
  - rewrite IH, fold_assign_default_keys. split.
    + intros [[H|[H Hk]]|(Hk & src & Hsrc & H)].
      * now left.
      * right. split; [exact Hk|]. exists source. split; [now left|exact H].
      * right. split; [exact Hk|]. exists src. split; [now right|exact H].
    + intros [H|(Hk & src & [<-|Hsrc] & H)].
      * left. now left.
      * left. right. now split.
      * right. split; [exact Hk|]. exists src. now split.
Qed.

Lemma defaults_NoDup (sources : list value) (destination : object) :
  List.NoDup (map fst destination) ->
  List.NoDup (map fst (defaults destination sources)).
Proof.
  unfold defaults. revert destination.
  induction sources as [|source rest IH]; intros destination Hnd; simpl;
    [exact Hnd|].
  apply IH. generalize (own_properties source). intros properties.
  revert destination Hnd.
  induction properties as [|p properties IHp]; intros destination Hnd; simpl;
    [exact Hnd|].
  apply IHp. now apply assign_default_NoDup.
Qed.

(** The keys of the assembled parameters. *)
Lemma assemble_keys (this : Client) (names : list string)
  (required : list value) (opts : value) (now : Z) (k : string) :
  In k (map fst (assemble this names required opts now))
  <-> In k ["api_key"; "format"; "expire"]
      \/ (is_undefined (inherited k) = true
          /\ (In k names \/ In k (map fst (own_properties opts)))).
Proof.
  unfold assemble. rewrite defaults_keys. simpl. split.
  - intros [[<-|[]]|(Hk & source & Hsource & Hin)]; [tauto|].
    destruct Hsource as [<-|[<-|[<-|[<-|[]]]]]; simpl in Hin.
    + destruct Hin as [<-|[]]. tauto.
    + unfold zipObject in Hin. apply zipObject_into_keys in Hin as [[Hin _]|[]].
      tauto.
    + tauto.
    + destruct Hin as [<-|[]]. tauto.
  - intros [[<-|[<-|[<-|[]]]]|(Hk & [Hin|Hin])].
    + left. now left.
    + right. split; [reflexivity|]. exists (VObject systemOptions).
      simpl. tauto.
    + right. split; [reflexivity|].
      exists (VObject [("expire", VNumber (now / 1000 + expire (options this)))]).
      simpl. tauto.
    + right. split; [exact Hk|].
      exists (VObject (zipObject names required)). split; [simpl; tauto|].
      simpl. unfold zipObject. apply zipObject_into_keys. left.
      split; [exact Hin|]. intros ->. discriminate Hk.
    + right. split; [exact Hk|]. exists opts. simpl. tauto.
Qed.

(** The query of a call that returns has one entry per key, and its keys are
    [api_key], [format], [expire], [sig] and, of the required names of the
    endpoint and the keys of the options, those that [Object.prototype] does
    not define. *)
Theorem request_query_keys (spec : Spec) (this : Client)
  (arguments : list value) (now : Z) (s : Sent) (names : list string) :
  request spec this arguments now = Returns s ->
  lookup_key (to_string (hd VUndefined arguments)) spec = Some names ->
  List.NoDup (map fst (url_query (uri (sent_request s))))
  /\ forall k,
       In k (map fst (url_query (uri (sent_request s))))
       <-> In k ["api_key"; "format"; "expire"; "sig"]
           \/ (inherited k = VUndefined
               /\ (In k names
                   \/ In k (map fst (own_properties
                                       (call_options (length names)
                                          (tl arguments)))))).
Proof.
  intros Hret Hspec.
  apply request_returns in Hret as (names' & Hspec' & _ & _ & ->).
  rewrite (table_names_own _ _ _ Hspec) in Hspec'. injection Hspec' as <-.
  simpl. split.
  - unfold signed, obj_set. apply NoDup_set_key. unfold assemble.
    apply defaults_NoDup. simpl. repeat constructor. simpl. tauto.
  - intros k. unfold signed, obj_set. rewrite keys_set_key, assemble_keys.
    assert (Hdef : is_undefined (inherited k) = true <-> inherited k = VUndefined)
      by (destruct (inherited k); simpl; split; congruence).
    rewrite Hdef. simpl. intuition congruence.
Qed.

Lemma request_query_keys_witness :
  exists s,
    request sample_spec sample_client
      [VString "funnels"; VNumber 12345;
       VObject [("from_date", VString "2014-03-01")]; cb] 1700000000999
    = Returns s
    /\ List.NoDup (map fst (url_query (uri (sent_request s))))
    /\ forall k,
         In k (map fst (url_query (uri (sent_request s))))
         <-> In k ["api_key"; "format"; "expire"; "sig"]
             \/ (inherited k = VUndefined
                 /\ (In k ["funnel_id"] \/ In k ["from_date"])).
Proof.
  eexists. split; [run_request|].
  apply (request_query_keys sample_spec sample_client
           [VString "funnels"; VNumber 12345;
            VObject [("from_date", VString "2014-03-01")]; cb]
           1700000000999 _ ["funnel_id"]).
  - run_request.
  - reflexivity.
Defined.

Lemma obj_delete_not_in (k : string) (o : object) :
  ~ In k (map fst o) -> obj_delete k o = o.
Proof.
  induction o as [|[k' v] o IH]; simpl; intros Hin; [reflexivity|].
  destruct (String.eqb_spec k k') as [->|Hne]; [tauto|].
  rewrite IH by tauto. reflexivity.
Qed.

(** The [sig] that is sent is always the computed signature; and when
    neither the required names nor the options hold a [sig] of their own, it
    is the signature of the rest of the query. *)
Theorem request_sig_verifies (spec : Spec) (this : Client)
  (arguments : list value) (now : Z) (s : Sent) (names : list string) :
  request spec this arguments now = Returns s ->
  lookup_key (to_string (hd VUndefined arguments)) spec = Some names ->
  ~ In "sig" names ->
  ~ In "sig" (map fst (own_properties
                         (call_options (length names) (tl arguments)))) ->
  obj_get "sig" (url_query (uri (sent_request s)))
  = VString (sign this (obj_delete "sig" (url_query (uri (sent_request s))))).
Proof.
  intros Hret Hspec Hnames Hopts.
  apply request_returns in Hret as (names' & Hspec' & _ & _ & ->).
  rewrite (table_names_own _ _ _ Hspec) in Hspec'. injection Hspec' as <-.
  simpl in *.
  unfold signed in *. rewrite obj_get_set_eq, obj_delete_set.
  rewrite obj_delete_not_in; [reflexivity|].
  rewrite assemble_keys. simpl.
  intros [[H|[H|[H|[]]]]|(_ & [H|H])]; try discriminate H; tauto.
Qed.

Lemma request_sig_verifies_witness :
  exists s,
    request sample_spec sample_client
      [VString "events/top"; VObject [("type", VString "general")]; cb]
      1700000000999 = Returns s
    /\ obj_get "sig" (url_query (uri (sent_request s)))
       = VString (sign sample_client
                    (obj_delete "sig" (url_query (uri (sent_request s))))).
Proof.
  eexists. split; [run_request|].
  apply (request_sig_verifies sample_spec sample_client
           [VString "events/top"; VObject [("type", VString "general")]; cb]
           1700000000999 _ []).
  - run_request.
  - reflexivity.
  - simpl. tauto.
  - simpl. intros [H|[]]. discriminate H.
Defined.

(** When neither the required names nor the options give an [expire], the
    one that is sent is a whole number of seconds, at most the configured
    expire seconds after the call and less than one second short of that. *)
Theorem request_expire_window (spec : Spec) (this : Client)
  (arguments : list value) (now : Z) (s : Sent) (names : list string) :
  request spec this arguments now = Returns s ->
  lookup_key (to_string (hd VUndefined arguments)) spec = Some names ->
  ~ In "expire" names ->
  ~ In "expire" (map fst (own_properties
                            (call_options (length names) (tl arguments)))) ->
  exists n,
    obj_get "expire" (url_query (uri (sent_request s))) = VNumber n
    /\ 1000 * (n - expire (options this)) <= now
       < 1000 * (n - expire (options this)) + 1000.
Proof.
  intros Hret Hspec Hnames Hopts.
  apply request_returns in Hret as (names' & Hspec' & _ & _ & ->).
  rewrite (table_names_own _ _ _ Hspec) in Hspec'. injection Hspec' as <-.
  simpl.
  exists (now / 1000 + expire (options this)). split.
  - rewrite signed_get by discriminate. rewrite assemble_get. simpl.
    rewrite (first_defined_not_in "expire" (zipObject _ _))
      by (unfold zipObject; rewrite zipObject_into_keys; simpl; tauto).
    simpl. rewrite first_defined_not_in by exact Hopts. reflexivity.
  - replace (now / 1000 + expire (options this) - expire (options this))
      with (now / 1000) by lia.
    pose proof (Z.div_mod now 1000 ltac:(lia)) as Hdiv.
    pose proof (Z.mod_pos_bound now 1000 ltac:(lia)) as Hmod.
    lia.
Qed.

Lemma request_expire_window_witness :
  exists s,
    request sample_spec sample_client
      [VString "events/top"; VObject [("type", VString "general")]; cb]
      1700000000999 = Returns s
    /\ exists n,
         obj_get "expire" (url_query (uri (sent_request s))) = VNumber n
         /\ 1000 * (n - 60) <= 1700000000999 < 1000 * (n - 60) + 1000.
Proof.
  eexists. split; [run_request|].
  apply (request_expire_window sample_spec sample_client
           [VString "events/top"; VObject [("type", VString "general")]; cb]
           1700000000999 _ []).
  - run_request.
  - reflexivity.
  - simpl. tauto.
  - simpl. intros [H|[]]. discriminate H.
Defined.

(** ** sign: the shape of a signature *)

Lemma bytes_le_length (count : nat) (x : Z) :
  length (MD5.bytes_le count x) = count.
Proof. unfold MD5.bytes_le. now rewrite length_map, length_seq. Qed.

Lemma bytes_le_range (count : nat) (x : Z) :
  Forall (fun b => 0 <= b < 256) (MD5.bytes_le count x).
Proof.
  unfold MD5.bytes_le. apply List.Forall_forall. intros b Hb.
  apply in_map_iff in Hb as (i & <- & _).
  change 255 with (Z.ones 8). rewrite Z.land_ones by lia.
  apply Z.mod_pos_bound. lia.
Qed.

Lemma digest_length (msg : list Z) : length (MD5.digest msg) = 16%nat.
Proof.
  unfold MD5.digest.
  destruct (MD5.blocks _ MD5.init (MD5.pad msg)) as [a b c d].
  now rewrite !length_app, !bytes_le_length.
Qed.

Lemma digest_range (msg : list Z) :
  Forall (fun b => 0 <= b < 256) (MD5.digest msg).
Proof.
  unfold MD5.digest.
  destruct (MD5.blocks _ MD5.init (MD5.pad msg)) as [a b c d].
  repeat (apply Forall_app; split); apply bytes_le_range.
Qed.

Lemma hex_digit_in (n : Z) : 0 <= n < 16 -> In (MD5.hex_digit n) hex_digits.
Proof.
  intros Hn.
  assert (Hall : forallb
                   (fun m => existsb (Ascii.eqb (MD5.hex_digit (Z.of_nat m)))
                               hex_digits)
                   (seq 0 16) = true) by (vm_compute; reflexivity).
  rewrite List.forallb_forall in Hall.
  specialize (Hall (Z.to_nat n)). rewrite Z2Nat.id in Hall by lia.
  apply List.existsb_exists in Hall as (c & Hc & Heq); [|apply in_seq; lia].
  apply Ascii.eqb_eq in Heq. now rewrite Heq.
Qed.

Lemma hex_shape (bytes : list Z) :
  Forall (fun b => 0 <= b < 256) bytes ->
  String.length (MD5.hex bytes) = (2 * length bytes)%nat
  /\ Forall (fun c => In c hex_digits) (list_ascii_of_string (MD5.hex bytes)).
Proof.
  induction 1 as [|b bytes Hb _ [IHlen IHchars]]; simpl.
  - split; [reflexivity|constructor].
  - split; [rewrite IHlen; lia|].
    constructor; [|constructor; [|exact IHchars]]; apply hex_digit_in.
    + rewrite Z.shiftr_div_pow2 by lia. change (2 ^ 4) with 16.
      split; [apply Z.div_pos; lia|apply Z.div_lt_upper_bound; lia].
    + change 15 with (Z.ones 4). rewrite Z.land_ones by lia.
      apply Z.mod_pos_bound. lia.
Qed.

(** Whatever the parameters and the secret, a signature is 32 characters
    long and made of the digits [0-9] and the lowercase letters [a-f]. *)
Theorem sign_shape (this : Client) (parameters : object) :
  String.length (sign this parameters) = 32%nat
  /\ Forall (fun c => In c hex_digits)
       (list_ascii_of_string (sign this parameters)).
Proof.
  unfold sign, md5_hex.
  destruct (hex_shape _ (digest_range
                           (utf8 (join_empty (sort (map joinPairs (pairs parameters)))
                                  ++ secret this))))
    as [Hlen Hchars].
  rewrite digest_length in Hlen. split; assumption.
Qed.

Lemma append_assoc (s1 s2 s3 : string) :
  (s1 ++ s2) ++ s3 = s1 ++ (s2 ++ s3).
Proof. induction s1 as [|c s1 IH]; simpl; [reflexivity|now rewrite IH]. Qed.

Lemma sort_sorted_id (l : list string) : Sorted string_le l -> sort l = l.
Proof.
  intros Hsorted.
  apply (Sorted_unique string_le); [apply sort_sorted|exact Hsorted|].
  unfold sort. apply merge_sort_Permutation.
Qed.

(** The joined pairs are concatenated with nothing between them, so a value
    can stand for a whole pair: parameters [k1 = v1] and [k2 = v2], in the
    order the sort puts them, sign like the single parameter [k1] whose value
    is [v1] followed by [k2], an equals sign and [v2]. *)
Theorem sign_pair_in_value (this : Client) (k1 v1 k2 v2 : string) :
  string_le (joinPairs (k1, VString v1)) (joinPairs (k2, VString v2)) ->
  sign this [(k1, VString v1); (k2, VString v2)]
  = sign this [(k1, VString (v1 ++ k2 ++ "=" ++ v2))].
Proof.
  intros Hle. unfold sign, pairs. simpl map.
  rewrite (sort_sorted_id [_; _]) by (repeat constructor; exact Hle).
  rewrite (sort_sorted_id [_]) by (repeat constructor).
  unfold joinPairs. simpl. f_equal.
  repeat (rewrite append_assoc; simpl). reflexivity.
Qed.

Lemma sign_pair_in_value_witness :
  sign sample_client [("from_date", VString "2014-03-01"); ("to_date", VString "2014-03-15")]
  = sign sample_client
      [("from_date", VString ("2014-03-01" ++ "to_date" ++ "=" ++ "2014-03-15"))].
Proof.
  apply sign_pair_in_value. reflexivity.
Defined.

(** ** The vanity methods: names and the prototype *)

(** A method name has no slash left and is as long as the endpoint name. *)
Theorem methodName_no_slash (endPoint : string) :
  ~ In "/"%char (list_ascii_of_string (methodName endPoint))
  /\ String.length (methodName endPoint) = String.length endPoint.
Proof.
  induction endPoint as [|c rest [IHin IHlen]]; simpl.
  - split; [tauto|reflexivity].
  - split; [|now rewrite IHlen].
    intros [Hc|Hrest]; [|contradiction].
    destruct (Ascii.eqb_spec c "/") as [->|Hne]; [discriminate Hc|].
    now apply Hne.
Qed.

(** An endpoint name is its own method name exactly when it has no slash. *)
Theorem methodName_fixed (endPoint : string) :
  methodName endPoint = endPoint
  <-> ~ In "/"%char (list_ascii_of_string endPoint).
Proof.
  induction endPoint as [|c rest IH]; simpl.
  - tauto.
  - destruct (Ascii.eqb_spec c "/") as [->|Hne]; split.
    + intros [= H]. 
    + intros H. exfalso. apply H. now left.
    + intros [= H]. apply IH in H. intros [Hc|Hrest]; [now apply Hne|contradiction].
    + intros H. f_equal. apply IH. tauto.
Qed.

(** Endpoint names without underscores get different method names. *)
Theorem methodName_injective (e1 e2 : string) :
  ~ In "_"%char (list_ascii_of_string e1) ->
  ~ In "_"%char (list_ascii_of_string e2) ->
  methodName e1 = methodName e2 ->
  e1 = e2.
Proof.
  revert e2.
  induction e1 as [|c1 r1 IH]; intros [|c2 r2]; simpl; try discriminate;
    [reflexivity|].
  intros H1 H2 [= Hc Hr].
  f_equal; [|apply IH; tauto].
  destruct (Ascii.eqb_spec c1 "/") as [->|Hn1];
    destruct (Ascii.eqb_spec c2 "/") as [->|Hn2]; try reflexivity.
  - subst c2. tauto.
  - subst c1. tauto.
  - exact Hc.
Qed.

Lemma methodName_injective_witness :
  "events/top" = "events/top".
Proof.
  apply (methodName_injective "events/top" "events/top").
  - simpl. intuition discriminate.
  - simpl. intuition discriminate.
  - reflexivity.
Defined.

Lemma fold_add_vanity_keys (spec : Spec) (proto : list (string * member))
  (n : string) :
  In n (map fst (fold_left add_vanity spec proto))
  <-> In n (map fst proto)
      \/ exists E, In E (map fst spec) /\ methodName E = n.
Proof.
  revert proto.
  induction spec as [|entry rest IH]; intros proto; simpl.
  - split; [now left|]. intros [H|(E & [] & _)]. exact H.
  - rewrite IH. unfold add_vanity. rewrite keys_set_key. split.
    + intros [[->|H]|(E & HE & Hn)].
      * right. exists (fst entry). split; [now left|reflexivity].
      * now left.
      * right. exists E. split; [now right|exact Hn].
    + intros [H|(E & [<-|HE] & Hn)].
      * left. now right.
      * left. left. now symmetry.
      * right. exists E. now split.
Qed.

Lemma fold_add_vanity_NoDup (spec : Spec) (proto : list (string * member)) :
  List.NoDup (map fst proto) ->
  List.NoDup (map fst (fold_left add_vanity spec proto)).
Proof.
  revert proto.
  induction spec as [|entry rest IH]; intros proto Hnd; simpl; [exact Hnd|].
  apply IH. unfold add_vanity. now apply NoDup_set_key.
Qed.

(** The prototype holds one method per name, and its names are [request],
    [sign] and the method names of the endpoints of the table. *)
Theorem prototype_names (spec : Spec) :
  List.NoDup (map fst (prototype spec))
  /\ forall n,
       In n (map fst (prototype spec))
       <-> n = "request" \/ n = "sign"
           \/ exists E, In E (map fst spec) /\ methodName E = n.
Proof.
  unfold prototype. split.
  - apply fold_add_vanity_NoDup. simpl. repeat constructor; simpl; intuition discriminate.
  - intros n. rewrite fold_add_vanity_keys. simpl. intuition.
Qed.

(** Where several endpoints have the same method name, the method is the one
    of the endpoint that comes last in the table; this holds for the names
    [request] and [sign] too, which an endpoint of that name takes over. *)
Theorem prototype_last_wins (before after : Spec) (E : string)
  (names : list string) :
  (forall E', In E' (map fst after) -> methodName E' <> methodName E) ->
  lookup_key (methodName E) (prototype (before ++ (E, names) :: after)%list)
  = Some (MVanity E).
Proof.
  intros Hafter. unfold prototype. rewrite fold_left_app. simpl.
  rewrite fold_add_vanity_other.
  - unfold add_vanity. simpl. apply lookup_set_eq.
  - intros Hclash. apply in_map_iff in Hclash as (entry & Hname & Hentry).
    apply (Hafter (fst entry)); [now apply in_map|exact Hname].
Qed.

Lemma prototype_last_wins_witness :
  lookup_key (methodName "sign")
    (prototype ([("events/top", [])] ++ ("sign", ["event"])
                  :: [("funnels", ["funnel_id"])])%list)
  = Some (MVanity "sign").
Proof.
  apply prototype_last_wins.
  simpl. intros E' [<-|[]]. discriminate.
Defined.






(** ** The constructor *)

(** A client that the constructor returned sends its requests with the GET
    method, as JSON, to the protocol, the domain and the API root given at
    construction, or to [https], [mixpanel.com] and [/api/2.0] where none
    was given, with the key given at construction as [api_key], which is not
    empty. *)
Theorem constructed_client_request (spec : Spec) (k s : string)
  (o : option Overrides) (this : Client) (arguments : list value) (now : Z)
  (sent : Sent) :
  MixpanelExportAPI k s o = Returns this ->
  request spec this arguments now = Returns sent ->
  let given := match o with Some given => given | None => no_overrides end in
  let r := sent_request sent in
  method r = "GET" /\ json r = true
  /\ url_protocol (uri r) = default "https" (o_protocol given)
  /\ url_hostname (uri r) = default "mixpanel.com" (o_domain given)
  /\ url_pathname (uri r)
     = (default "/api/2.0" (o_apiRoot given), hd VUndefined arguments)
  /\ obj_get "api_key" (url_query (uri r)) = VString k
  /\ k <> "".
Proof.
  intros Hnew Hret. unfold MixpanelExportAPI in Hnew.
  destruct (String.eqb_spec k "") as [->|Hk]; simpl in Hnew; [discriminate|].
  destruct (String.eqb s ""); simpl in Hnew; [discriminate|].
  injection Hnew as <-.
  apply request_returns in Hret as (names & _ & _ & _ & ->).
  simpl. rewrite signed_get by discriminate. rewrite assemble_get. simpl.
  repeat split; try reflexivity. exact Hk.
Qed.

Lemma constructed_client_request_witness :
  exists sent,
    request sample_spec sample_client
      [VString "events/top"; VObject [("type", VString "general")]; cb]
      1700000000999 = Returns sent
    /\ method (sent_request sent) = "GET" /\ json (sent_request sent) = true
    /\ url_protocol (uri (sent_request sent)) = "https"
    /\ url_hostname (uri (sent_request sent)) = "mixpanel.com"
    /\ url_pathname (uri (sent_request sent)) = ("/api/2.0", VString "events/top")
    /\ obj_get "api_key" (url_query (uri (sent_request sent))) = VString "K"
    /\ "K" <> "".
Proof.
  eexists. split; [run_request|].
  apply (constructed_client_request sample_spec "K" "S" None sample_client
           [VString "events/top"; VObject [("type", VString "general")]; cb]
           1700000000999).
  - reflexivity.
  - run_request.
Defined.
